(** * Verification of the short-url backend (url-shortener-backend/server.js)

    The HTTP routes of [server.js] are embedded from the source.  The data
    access layer [urlService.js] (createShortUrl, getUrlByShortCode,
    incrementClickCount, getUrlStats) is not part of the sources at hand and
    is modelled from the spec, section 4.1.  The URL constructor, the QR
    renderer and the SQL driver are external collaborators. *)

From Stdlib Require Import String Ascii List ZArith Bool Lia.
From Stdlib Require DecimalString.
Import ListNotations.
Open Scope string_scope.
Set Warnings "-register-all".


(* ================================================================= *)
(** ** Data model *)

(** A row of the [urls] table. *)
Record Row := mkRow {
  short_code : string;
  original_url : string;
  created_at : Z;
  expires_at : option Z;
  click_count : nat
}.

(** The persistence store: the rows in insertion order, whether the
    connection pool is reachable (and the driver's error message when it is
    not), and the upcoming draws of the random short-code generator. *)
Record Db := mkDb {
  rows : list Row;
  up : bool;
  cause : string;
  draws : list string
}.

Definition set_rows (rs : list Row) (db : Db) : Db :=
  mkDb rs (up db) (cause db) (draws db).

Definition set_draws (ds : list string) (db : Db) : Db :=
  mkDb (rows db) (up db) (cause db) ds.

(** Typed failures of the service layer (the [err.status] tags of the
    source's error objects). *)
Inductive SvcErr :=
| NotFound
| Expired (at_ : Z)
| StoreFailure (msg : string).

Inductive Result (A : Type) :=
| Ok (a : A)
| Err (e : SvcErr).
Arguments Ok {A} a.
Arguments Err {A} e.

(** A small state-and-error monad over the store. *)
Definition M (A : Type) := Db -> Result A * Db.

Definition ret {A} (a : A) : M A := fun db => (Ok a, db).
Definition fail {A} (e : SvcErr) : M A := fun db => (Err e, db).
Definition bind {A B} (m : M A) (k : A -> M B) : M B :=
  fun db => match m db with
            | (Ok a, db1) => k a db1
            | (Err e, db1) => (Err e, db1)
            end.
Definition catch {A} (m : M A) (h : SvcErr -> M A) : M A :=
  fun db => match m db with
            | (Ok a, db1) => (Ok a, db1)
            | (Err e, db1) => h e db1
            end.
Definition get : M Db := fun db => (Ok db, db).
Definition put (db : Db) : M unit := fun _ => (Ok tt, db).

Notation "x <- m ;; k" := (bind m (fun x => k))
  (at level 61, m at next level, right associativity).
Notation "m ;;; k" := (bind m (fun _ => k))
  (at level 61, right associativity).

(* ================================================================= *)
(** ** Store queries *)

Fixpoint find_by_url (u : string) (rs : list Row) : option Row :=
  match rs with
  | [] => None
  | r :: t => if String.eqb (original_url r) u then Some r else find_by_url u t
  end.

Fixpoint find_by_code (c : string) (rs : list Row) : option Row :=
  match rs with
  | [] => None
  | r :: t => if String.eqb (short_code r) c then Some r else find_by_code c t
  end.

Definition code_exists (c : string) (rs : list Row) : bool :=
  match find_by_code c rs with Some _ => true | None => false end.

(** [UPDATE urls SET click_count = click_count + 1 WHERE short_code = @c] *)
Definition bump_rows (c : string) (rs : list Row) : list Row :=
  map (fun r => if String.eqb (short_code r) c
                then mkRow (short_code r) (original_url r) (created_at r)
                           (expires_at r) (S (click_count r))
                else r) rs.

(** A query first needs a reachable pool. *)
Definition connected : M unit :=
  db <- get ;;
  if up db then ret tt else fail (StoreFailure (cause db)).

(* ================================================================= *)
(** ** Link Service (urlService.js) *)

(** Modelled from the spec: the short-code generator of urlService.js
    (spec 4.1 and 4.2), "generate, check existence, regenerate on
    collision"; the random draws are the store's [draws].  When the draws
    run out the insert cannot be made unique and a generic failure is
    surfaced. *)
Fixpoint fresh_code (ds : list string) (rs : list Row)
  : option (string * list string) :=
  match ds with
  | [] => None
  | d :: t => if code_exists d rs then fresh_code t rs else Some (d, t)
  end.

(** Modelled from the spec: [createShortUrl(url, expiresAt)] of
    urlService.js (spec 4.1, createShortLink): dedup by exact URL, otherwise
    insert a fresh row with [createdAt] = now and [clickCount] = 0. *)
Definition createShortUrl (now : Z) (url : string) (exp : option Z) : M string :=
  connected ;;;
  db <- get ;;
  match find_by_url url (rows db) with
  | Some r => ret (short_code r)
  | None =>
      match fresh_code (draws db) (rows db) with
      | None => fail (StoreFailure "could not generate a unique short code")
      | Some (c, rest) =>
          put (mkDb (rows db ++ [mkRow c url now exp 0]) (up db) (cause db) rest) ;;;
          ret c
      end
  end.

(** Modelled from the spec: [getUrlByShortCode(shortCode)] of urlService.js
    (spec 4.1, resolveShortLink): NotFound, Expired when now > expiresAt,
    otherwise the row. *)
Definition getUrlByShortCode (now : Z) (c : string) : M Row :=
  connected ;;;
  db <- get ;;
  match find_by_code c (rows db) with
  | None => fail NotFound
  | Some r =>
      match expires_at r with
      | Some e => if Z.ltb e now then fail (Expired e) else ret r
      | None => ret r
      end
  end.

(** Modelled from the spec: [incrementClickCount(shortCode)] of
    urlService.js (spec 4.1): +1 on the matching row, no-op otherwise. *)
Definition incrementClickCount (c : string) : M unit :=
  connected ;;;
  db <- get ;;
  put (set_rows (bump_rows c (rows db)) db).

(** JSON values produced by the server. *)
Inductive JOut :=
| ONull
| OStr (s : string)
| ONum (n : Z)
| OArr (l : list JOut)
| OObj (fs : list (string * JOut)).

Definition opt_time (o : option Z) : JOut :=
  match o with Some t => ONum t | None => ONull end.

(** The snapshot of a row, as the stats endpoint serialises it. *)
Definition row_stats (r : Row) : JOut :=
  OObj [("short_code", OStr (short_code r));
        ("original_url", OStr (original_url r));
        ("click_count", ONum (Z.of_nat (click_count r)));
        ("created_at", ONum (created_at r));
        ("expires_at", opt_time (expires_at r))].

(** Modelled from the spec: [getUrlStats(shortCode)] of urlService.js
    (spec 4.1, getStats): NotFound, otherwise all five fields, with no
    expiration check. *)
Definition getUrlStats (c : string) : M JOut :=
  connected ;;;
  db <- get ;;
  match find_by_code c (rows db) with
  | None => fail NotFound
  | Some r => ret (row_stats r)
  end.

(* ================================================================= *)
(** ** JavaScript string helpers *)

(** Characters removed by [String.prototype.trim] (ASCII and Latin-1 part:
    TAB, LF, VT, FF, CR, SPACE, NBSP). *)
Definition js_space (a : ascii) : bool :=
  let n := nat_of_ascii a in
  (Nat.leb 9 n && Nat.leb n 13) || Nat.eqb n 32 || Nat.eqb n 160.

Fixpoint trim_start (s : string) : string :=
  match s with
  | EmptyString => EmptyString
  | String a t => if js_space a then trim_start t else s
  end.

Fixpoint rev_str (s : string) (acc : string) : string :=
  match s with
  | EmptyString => acc
  | String a t => rev_str t (String a acc)
  end.

Definition trim_end (s : string) : string :=
  rev_str (trim_start (rev_str s EmptyString)) EmptyString.

(** [s.trim()] *)
Definition trim (s : string) : string := trim_end (trim_start s).

(** [hay.includes(needle)] *)
Fixpoint includes (hay needle : string) : bool :=
  String.prefix needle hay ||
  match hay with
  | EmptyString => false
  | String _ t => includes t needle
  end.

(* ================================================================= *)
(** ** HTTP surface *)

(** JavaScript values a JSON request body can hold in its [url] field. *)
Inductive JIn :=
| JUndefined
| JNull
| JBool (b : bool)
| JNum (n : Z)
| JStr (s : string).

(** Body of POST /api/shorten.  [expires_at || null] is passed to the
    driver, which stores it as a DATETIME: [None] stands for a falsy value. *)
Record ShortenBody := mkShortenBody {
  b_url : JIn;
  b_expires_at : option Z
}.

Inductive Request :=
| GetRoot
| GetDebugUrls
| PostShorten (b : ShortenBody)
| GetStats (shortCode : string)
| GetQr (shortCode : string)
| GetRedirect (shortCode : string).

(** Response bodies: JSON, a redirect (its Location), the two HTML pages
    of the redirect route (the expired page shows the expiration instant),
    the QR image of a text, and Express's default error page for an
    exception thrown outside a try block. *)
Inductive Body :=
| BJson (j : JOut)
| BRedirect (location : string)
| BExpiredPage (shown_expiry : Z)
| BNotFoundPage
| BQrPng (encoded : string)
| BDefaultErrorPage.

Record Response := mkResponse {
  status : nat;
  content_type : string;
  body : Body
}.

Definition json (st : nat) (j : JOut) : Response :=
  mkResponse st "application/json" (BJson j).
Definition html (st : nat) (b : Body) : Response :=
  mkResponse st "text/html" b.

(** [url ? url.trim() : null]: [None] is [null], [Some] the trimmed string;
    a truthy value that is not a string throws a TypeError. *)
Inductive Trimmed := TNull | TStr (s : string) | TThrow.

Definition trim_field (v : JIn) : Trimmed :=
  match v with
  | JUndefined | JNull | JBool false => TNull
  | JNum n => if Z.eqb n 0 then TNull else TThrow
  | JBool true => TThrow
  | JStr s => if String.eqb s "" then TNull else TStr (trim s)
  end.

Section Server.

(** [BASE_URL]: the configured externally visible base URL. *)
Variable BASE_URL : string.
(** Whether [new URL(string)] succeeds (WHATWG URL parser). *)
Variable url_parses : string -> bool.

(** [isValidUrl(string)] *)
Definition isValidUrl (s : string) : bool :=
  if url_parses s then
    if includes s "localhost" || includes s "azurewebsites.net" then false
    else true
  else false.

Definition short_url_of (c : string) : string := BASE_URL ++ "/" ++ c.

(** The catch block of the redirect route. *)
Definition redirect_error_page (e : SvcErr) : Response :=
  match e with
  | Expired t => html 410 (BExpiredPage t)
  | _ => html 404 BNotFoundPage
  end.

(** Handles one request arriving at instant [now]. *)
Definition handle (now : Z) (req : Request) : M Response :=
  match req with
  | GetRoot =>
      ret (json 200 (OObj [("status", OStr "ok");
                           ("service", OStr "URL Shortener API");
                           ("message", OStr ("API endpoints available under "
                                              ++ BASE_URL ++ "/api"))]))
  | GetDebugUrls =>
      catch
        (connected ;;;
         db <- get ;;
         ret (json 200 (OArr (map (fun r => OObj [("short_code", OStr (short_code r));
                                                  ("original_url", OStr (original_url r))])
                                  (rows db)))))
        (fun e => match e with
                  | StoreFailure m => ret (json 500 (OObj [("error", OStr m)]))
                  | _ => ret (json 500 (OObj [("error", OStr "")]))
                  end)
  | PostShorten b =>
      match trim_field (b_url b) with
      | TThrow => ret (html 500 BDefaultErrorPage)
      | TNull => ret (json 400 (OObj [("error", OStr "Invalid URL")]))
      | TStr url =>
          if String.eqb url "" || negb (isValidUrl url) then
            ret (json 400 (OObj [("error", OStr "Invalid URL")]))
          else
            catch
              (shortCode <- createShortUrl now url (b_expires_at b) ;;
               ret (json 200 (OObj [("short_url", OStr (short_url_of shortCode));
                                    ("short_code", OStr shortCode)])))
              (fun _ => ret (json 500 (OObj [("error", OStr "Failed to shorten")])))
      end
  | GetStats c =>
      catch
        (stats <- getUrlStats c ;; ret (json 200 stats))
        (fun _ => ret (json 404 (OObj [("error", OStr "Not found")])))
  | GetQr c =>
      ret (mkResponse 200 "image/png" (BQrPng (short_url_of c)))
  | GetRedirect c =>
      catch
        (row <- getUrlByShortCode now c ;;
         incrementClickCount c ;;;
         ret (mkResponse 302 "" (BRedirect (original_url row))))
        (fun e => ret (redirect_error_page e))
  end.

(** A sequence of timed requests, logged with their responses. *)
Fixpoint run (reqs : list (Z * Request)) (db : Db)
  : list (Request * Response) * Db :=
  match reqs with
  | [] => ([], db)
  | (t, q) :: rest =>
      match handle t q db with
      | (Ok resp, db1) => let (log, db2) := run rest db1 in ((q, resp) :: log, db2)
      | (Err _, db1) => run rest db1
      end
  end.

End Server.

(* ================================================================= *)
(** ** Frontend (url-shortener-frontend, App.js) *)

(** Look-up of a property of a parsed JSON value ([data.key]);
    [None] is [undefined]. *)
Definition jget (k : string) (j : JOut) : option JOut :=
  match j with
  | OObj fs =>
      match find (fun kv => String.eqb (fst kv) k) fs with
      | Some (_, v) => Some v
      | None => None
      end
  | _ => None
  end.

(** JavaScript truthiness of a property value. *)
Definition jtruthy (o : option JOut) : bool :=
  match o with
  | None | Some ONull => false
  | Some (OStr s) => negb (String.eqb s "")
  | Some (ONum n) => negb (Z.eqb n 0)
  | Some _ => true
  end.

(** String conversion of a value in a template literal ([`${v}`]). *)
Fixpoint js_str_of (j : JOut) : string :=
  match j with
  | ONull => "null"
  | OStr s => s
  | ONum n => DecimalString.NilZero.string_of_int (Z.to_int n)
  | OArr l =>
      (fix join (l : list JOut) : string :=
         match l with
         | [] => ""
         | [x] => js_str_of x
         | x :: t => js_str_of x ++ "," ++ join t
         end) l
  | OObj _ => "[object Object]"
  end.

Definition js_str (o : option JOut) : string :=
  match o with Some j => js_str_of j | None => "undefined" end.

(** [response.ok]: a status in the range 200-299. *)
Definition response_ok (st : nat) : bool := Nat.leb 200 st && Nat.ltb st 300.

(** The component state of [App] ([useState] hooks).  The datetime-local
    input is held as the instant it denotes, [None] for the empty input. *)
Record FeState := mkFe {
  fe_url : string;
  fe_expiresAt : option Z;
  fe_result : option JOut;
  fe_qrCode : option string;
  fe_error : string;
  fe_loading : bool;
  fe_stats : option JOut;
  fe_showStats : bool
}.

Definition fe_init : FeState := mkFe "" None None None "" false None false.

Section Frontend.

(** [REACT_APP_API_URL]; requests under it reach the backend's routes. *)
Variable API_URL : string.
(** The backend's [BASE_URL]. *)
Variable BASE_URL : string.
(** Whether [new URL(string)] succeeds, for both sides. *)
Variable url_parses : string -> bool.
(** [new Date(s)] of a string: [None] for an invalid date. *)
Variable parse_date : string -> option Z.
(** Message of the error [response.json()] rejects with on a non-JSON body. *)
Variable json_error_msg : string.

(** [isValidUrl] of App.js. *)
Definition fe_isValidUrl (s : string) : bool := url_parses s.

(** State after the resets at the start of [handleShorten]. *)
Definition fe_reset (fe : FeState) : FeState :=
  mkFe (fe_url fe) (fe_expiresAt fe) None None "" (fe_loading fe) None false.

Definition fe_set_error (msg : string) (fe : FeState) : FeState :=
  mkFe (fe_url fe) (fe_expiresAt fe) (fe_result fe) (fe_qrCode fe) msg
       (fe_loading fe) (fe_stats fe) (fe_showStats fe).

Definition fe_set_loading (b : bool) (fe : FeState) : FeState :=
  mkFe (fe_url fe) (fe_expiresAt fe) (fe_result fe) (fe_qrCode fe) (fe_error fe)
       b (fe_stats fe) (fe_showStats fe).

(** [handleShorten] at instant [now]: the POST goes to the backend's
    /api/shorten route, which acts on the store. *)
Definition handleShorten (now : Z) (fe : FeState) : M FeState :=
  let fe0 := fe_reset fe in
  if String.eqb (trim (fe_url fe)) "" then ret (fe_set_error "Please enter a URL" fe0)
  else if negb (fe_isValidUrl (fe_url fe)) then
    ret (fe_set_error "Please enter a valid URL" fe0)
  else
    resp <- handle BASE_URL url_parses now
              (PostShorten (mkShortenBody (JStr (trim (fe_url fe))) (fe_expiresAt fe))) ;;
    if negb (response_ok (status resp)) then
      ret (fe_set_loading false (fe_set_error "Failed to shorten URL" fe0))
    else
      match body resp with
      | BJson data =>
          ret (mkFe "" None (Some data)
                    (Some (API_URL ++ "/api/qr/" ++ js_str (jget "short_code" data)))
                    "" false None false)
      | _ => ret (fe_set_loading false (fe_set_error json_error_msg fe0))
      end.

(** [handleGetStats]: nothing without a result; otherwise GET
    /api/stats/<result.short_code>. *)
Definition handleGetStats (now : Z) (fe : FeState) : M FeState :=
  match fe_result fe with
  | None => ret fe
  | Some r =>
      resp <- handle BASE_URL url_parses now (GetStats (js_str (jget "short_code" r))) ;;
      if negb (response_ok (status resp)) then ret (fe_set_error "Failed to fetch stats" fe)
      else
        match body resp with
        | BJson data =>
            ret (mkFe (fe_url fe) (fe_expiresAt fe) (fe_result fe) (fe_qrCode fe)
                      (fe_error fe) (fe_loading fe) (Some data) true)
        | _ => ret (fe_set_error "Failed to fetch stats" fe)
        end
  end.

(** [isExpired] at instant [now]: [new Date() > new Date(result.expires_at)];
    a comparison with an invalid date is false. *)
Definition isExpired (now : Z) (fe : FeState) : bool :=
  match fe_result fe with
  | None => false
  | Some r =>
      if negb (jtruthy (jget "expires_at" r)) then false
      else match jget "expires_at" r with
           | Some (ONum t) => Z.ltb t now
           | Some (OStr s) =>
               match parse_date s with Some t => Z.ltb t now | None => false end
           | _ => false
           end
  end.

End Frontend.

(** A stand-in for the WHATWG URL constructor, used only to evaluate the
    routes at concrete inputs: an [http] or [https] scheme followed by a
    non-empty host. *)
Definition http_url_parses (s : string) : bool :=
  (String.prefix "http://" s && Nat.ltb 7 (String.length s))
  || (String.prefix "https://" s && Nat.ltb 8 (String.length s)).

(** The default [BASE_URL] ([http://localhost:${PORT}] with PORT 5000). *)
Definition default_base : string := "http://localhost:5000".

(** The response of a route, all of which answer. *)
Definition fst_ok (x : Result Response * Db) : Response :=
  match fst x with Ok r => r | Err _ => mkResponse 500 "text/html" BDefaultErrorPage end.

(** Clicks recorded for a code: the click count of the row a lookup finds,
    0 when there is none. *)
Definition clicks (c : string) (db : Db) : nat :=
  match find_by_code c (rows db) with
  | Some r => click_count r
  | None => 0
  end.

(** Number of records holding URL [u]. *)
Definition count_url (u : string) (rs : list Row) : nat :=
  length (filter (fun r => String.eqb (original_url r) u) rs).

(** A logged request is a served redirect of [c]. *)
Definition served_redirect (c : string) (qr : Request * Response) : bool :=
  match qr with
  | (GetRedirect c', resp) => String.eqb c' c && Nat.eqb (status resp) 302
  | _ => false
  end.

Example trim_ex : trim "  https://example.com/a/b 	" = "https://example.com/a/b".
Proof. reflexivity. Qed.

Example includes_ex : includes "http://localhost:5000/x" "localhost" = true.
Proof. reflexivity. Qed.

Example parses_ex :
  http_url_parses "https://example.com" = true /\ http_url_parses "not a url" = false.
Proof. split; reflexivity. Qed.

(* ================================================================= *)
(** ** Helper lemmas *)

(** Unfolds a route and the monad it runs in. *)
Ltac unfold_route :=
  cbv beta iota delta [handle catch bind getUrlStats getUrlByShortCode
    incrementClickCount createShortUrl connected get put ret fail set_rows].
Tactic Notation "unfold_route" "in" hyp(H) :=
  cbv beta iota delta [handle catch bind getUrlStats getUrlByShortCode
    incrementClickCount createShortUrl connected get put ret fail set_rows] in H.

Lemma find_by_url_spec u rs r :
  find_by_url u rs = Some r -> In r rs /\ original_url r = u.
Proof.
  induction rs as [|x t IH]; simpl; [discriminate|].
  destruct (String.eqb_spec (original_url x) u) as [E|_].
  - intros [= <-]. auto.
  - intros H. destruct (IH H). auto.
Qed.

Lemma find_by_code_nodup rs r :
  NoDup (map short_code rs) -> In r rs -> find_by_code (short_code r) rs = Some r.
Proof.
  induction rs as [|x t IH]; simpl; [contradiction|].
  intros Hnd Hin. inversion Hnd as [|? ? Hx Ht]; subst.
  destruct (String.eqb_spec (short_code x) (short_code r)) as [E|E].
  - destruct Hin as [->|Hin]; [reflexivity|].
    exfalso. apply Hx. rewrite E. apply in_map. exact Hin.
  - destruct Hin as [->|Hin]; [congruence|]. auto.
Qed.

Lemma find_by_code_app c rs rs' :
  find_by_code c (rs ++ rs') =
  match find_by_code c rs with Some r => Some r | None => find_by_code c rs' end.
Proof.
  induction rs as [|x t IH]; simpl; [reflexivity|].
  destruct (String.eqb (short_code x) c); auto.
Qed.

Lemma fresh_code_spec ds rs c rest :
  fresh_code ds rs = Some (c, rest) -> find_by_code c rs = None.
Proof.
  induction ds as [|d t IH]; simpl; [discriminate|].
  unfold code_exists. destruct (find_by_code d rs) eqn:E.
  - exact IH.
  - intros [= <- _]. exact E.
Qed.

Lemma find_by_code_bump c c' rs :
  find_by_code c (bump_rows c' rs) =
  match find_by_code c rs with
  | Some r => Some (if String.eqb c c'
                    then mkRow (short_code r) (original_url r) (created_at r)
                               (expires_at r) (S (click_count r))
                    else r)
  | None => None
  end.
Proof.
  induction rs as [|x t IH]; simpl; [reflexivity|].
  destruct (String.eqb_spec (short_code x) c') as [E|E]; simpl.
  - destruct (String.eqb_spec (short_code x) c) as [E'|E'].
    + subst. rewrite String.eqb_refl. reflexivity.
    + exact IH.
  - destruct (String.eqb_spec (short_code x) c) as [E'|E'].
    + subst. destruct (String.eqb_spec (short_code x) c'); [congruence|reflexivity].
    + exact IH.
Qed.

(* ================================================================= *)
(** ** The redirect route on an expired record *)

(** C1: when the store is reachable and the row found for [c] has an
    expiration earlier than the instant of the request, GET /:shortCode
    answers 410 with the expired page showing that expiration, and the store
    (hence every click count) is left as it was. *)
Theorem redirect_expired_410 B P now c db r e :
  up db = true ->
  find_by_code c (rows db) = Some r ->
  expires_at r = Some e ->
  (e < now)%Z ->
  handle B P now (GetRedirect c) db = (Ok (html 410 (BExpiredPage e)), db).
Proof.
  intros Hup Hf He Hlt.
  unfold_route. rewrite Hup, Hf, He. apply Z.ltb_lt in Hlt. rewrite Hlt. reflexivity.
Qed.

(* ================================================================= *)
(** ** The stats route *)

(** C7: with a reachable store, GET /api/stats/:shortCode answers 404
    [{error: "Not found"}] when no row has the code, and otherwise 200 with
    the row's five fields; the answer does not depend on the instant of the
    request (no expiration check), and the store is untouched. *)
Theorem stats_snapshot B P c db :
  up db = true ->
  (find_by_code c (rows db) = None ->
   forall now, handle B P now (GetStats c) db
               = (Ok (json 404 (OObj [("error", OStr "Not found")])), db)) /\
  (forall r, find_by_code c (rows db) = Some r ->
   forall now, handle B P now (GetStats c) db = (Ok (json 200 (row_stats r)), db)).
Proof.
  intros Hup. split.
  - intros Hf now. unfold_route. rewrite Hup, Hf. reflexivity.
  - intros r Hf now. unfold_route. rewrite Hup, Hf. reflexivity.
Qed.

(* ================================================================= *)
(** ** The shorten route: response shape and rejection *)

Lemma handle_shorten_cases B P now b db :
  handle B P now (PostShorten b) db = (Ok (html 500 BDefaultErrorPage), db) \/
  handle B P now (PostShorten b) db
    = (Ok (json 400 (OObj [("error", OStr "Invalid URL")])), db) \/
  (exists db', handle B P now (PostShorten b) db
    = (Ok (json 500 (OObj [("error", OStr "Failed to shorten")])), db')) \/
  (exists c db', handle B P now (PostShorten b) db
    = (Ok (json 200 (OObj [("short_url", OStr (B ++ "/" ++ c));
                           ("short_code", OStr c)])), db')).
Proof.
  unfold handle. destruct (trim_field (b_url b)) as [|url|]; auto.
  destruct (String.eqb url "" || negb (isValidUrl P url)); auto.
  unfold catch, bind, ret.
  destruct (createShortUrl now url (b_expires_at b) db) as [[c|e] db'].
  - do 3 right. exists c, db'. reflexivity.
  - right; right; left. exists db'. reflexivity.
Qed.

(** C8: a successful (200) answer to POST /api/shorten is the JSON object
    with [short_url] equal to [BASE_URL ++ "/" ++ short_code]. *)
Theorem shorten_short_url B P now b db resp db' :
  handle B P now (PostShorten b) db = (Ok resp, db') ->
  status resp = 200 ->
  exists c, body resp = BJson (OObj [("short_url", OStr (B ++ "/" ++ c));
                                     ("short_code", OStr c)]).
Proof.
  intros H Hst.
  destruct (handle_shorten_cases B P now b db)
    as [E|[E|[[d E]|[c [d E]]]]]; rewrite E in H; injection H as <- _;
    try discriminate Hst.
  exists c. reflexivity.
Qed.

(** C10: a POST /api/shorten body whose [url] is missing, null, or a string
    that trims to the empty string gets 400 [{error: "Invalid URL"}] and
    the store is untouched (the service is not called). *)
Theorem shorten_missing_url_400 B P now b db :
  (b_url b = JUndefined \/ b_url b = JNull \/
   exists s, b_url b = JStr s /\ trim s = "") ->
  handle B P now (PostShorten b) db
    = (Ok (json 400 (OObj [("error", OStr "Invalid URL")])), db).
Proof.
  intros H. unfold handle.
  destruct H as [E|[E|[s [E Ht]]]]; rewrite E; simpl; try reflexivity.
  destruct (String.eqb s ""); [reflexivity|]. rewrite Ht. reflexivity.
Qed.

(* ================================================================= *)
(** ** The QR route *)

(** C9: GET /api/qr/:shortCode answers 200 [image/png] with the QR code of
    [BASE_URL ++ "/" ++ shortCode], whatever the store holds (known, unknown
    or expired code, even an unreachable store), and leaves the store as it
    was. *)
Theorem qr_ignores_store B P now c db :
  handle B P now (GetQr c) db
    = (Ok (mkResponse 200 "image/png" (BQrPng (B ++ "/" ++ c))), db).
Proof. reflexivity. Qed.

(* ================================================================= *)
(** ** Successful shortening *)

(** What a 200 answer to POST /api/shorten with a string [url] means for
    the store: either the trimmed URL was already stored and the store is
    unchanged, or a fresh code was drawn and a row with 0 clicks appended. *)
Lemma shorten_ok_inv B P now u e db resp db' s c :
  handle B P now (PostShorten (mkShortenBody (JStr u) e)) db = (Ok resp, db') ->
  body resp = BJson (OObj [("short_url", OStr s); ("short_code", OStr c)]) ->
  up db = true /\ trim u <> "" /\ isValidUrl P (trim u) = true /\
  ((exists r, find_by_url (trim u) (rows db) = Some r /\ c = short_code r /\ db' = db) \/
   (find_by_url (trim u) (rows db) = None /\
    exists rest, fresh_code (draws db) (rows db) = Some (c, rest) /\
    db' = mkDb (rows db ++ [mkRow c (trim u) now e 0]) (up db) (cause db) rest)).
Proof.
  intros H Hb. revert H. unfold handle, trim_field. cbn [b_url b_expires_at].
  destruct (String.eqb u "").
  { intros [= <- _]. discriminate Hb. }
  destruct (String.eqb_spec (trim u) "") as [Ht|Ht]; simpl.
  { intros [= <- _]. discriminate Hb. }
  destruct (isValidUrl P (trim u)) eqn:V; simpl.
  2: { intros [= <- _]. discriminate Hb. }
  unfold_route. destruct (up db) eqn:Hup.
  2: { intros [= <- _]. discriminate Hb. }
  destruct (find_by_url (trim u) (rows db)) as [r|] eqn:Hf.
  - intros [= <- <-]. simpl in Hb. injection Hb as _ <-.
    repeat split; auto. left. eauto.
  - destruct (fresh_code (draws db) (rows db)) as [[c' rest]|] eqn:Hc.
    + intros [= <- <-]. simpl in Hb. injection Hb as _ <-.
      repeat split; auto. right. split; [reflexivity|]. exists rest. rewrite Hup. auto.
    + intros [= <- _]. discriminate Hb.
Qed.

Lemma find_by_url_app u rs rs' :
  find_by_url u (rs ++ rs') =
  match find_by_url u rs with Some r => Some r | None => find_by_url u rs' end.
Proof.
  induction rs as [|x t IH]; simpl; [reflexivity|].
  destruct (String.eqb (original_url x) u); auto.
Qed.

Lemma count_url_app u rs rs' :
  count_url u (rs ++ rs') = count_url u rs + count_url u rs'.
Proof. unfold count_url. rewrite filter_app, length_app. reflexivity. Qed.

Lemma find_by_url_none_count u rs :
  find_by_url u rs = None -> count_url u rs = 0.
Proof.
  unfold count_url. induction rs as [|x t IH]; simpl; [reflexivity|].
  destruct (String.eqb (original_url x) u); [discriminate|exact IH].
Qed.

Lemma find_by_url_some_count u rs r :
  find_by_url u rs = Some r -> 1 <= count_url u rs.
Proof.
  unfold count_url. induction rs as [|x t IH]; simpl; [discriminate|].
  destruct (String.eqb (original_url x) u); simpl; [lia|auto].
Qed.

Lemma trim_empty : trim "" = "".
Proof. reflexivity. Qed.

(** POST /api/shorten of an accepted URL that is already stored answers
    with the stored code and leaves the store as it was. *)
Lemma shorten_found B P t u e db r :
  up db = true -> trim u <> "" -> isValidUrl P (trim u) = true ->
  find_by_url (trim u) (rows db) = Some r ->
  handle B P t (PostShorten (mkShortenBody (JStr u) e)) db
    = (Ok (json 200 (OObj [("short_url", OStr (short_url_of B (short_code r)));
                           ("short_code", OStr (short_code r))])), db).
Proof.
  intros Hup Ht V Hf. unfold handle, trim_field. cbn [b_url b_expires_at].
  destruct (String.eqb_spec u "") as [->|_]; [contradiction|].
  destruct (String.eqb_spec (trim u) "") as [E|_]; [contradiction|].
  rewrite V. simpl. unfold_route. rewrite Hup, Hf. reflexivity.
Qed.

(** The redirect route on a live row. *)
Lemma redirect_live B P t c db r :
  up db = true -> find_by_code c (rows db) = Some r -> expires_at r = None ->
  handle B P t (GetRedirect c) db
    = (Ok (mkResponse 302 "" (BRedirect (original_url r))),
       set_rows (bump_rows c (rows db)) db).
Proof.
  intros Hup Hf He. destruct db as [rs u cs ds]. simpl in Hup, Hf. subst u.
  unfold_route. simpl. rewrite Hf, He. reflexivity.
Qed.

(* ================================================================= *)
(** ** Round trip *)

(** C2 (as amended): when codes are unique and no stored row for the
    trimmed URL carries an expiration, a successful POST /api/shorten
    without [expires_at] returns a code whose GET /:shortCode, at any later
    instant, redirects to the trimmed URL. *)
Theorem shorten_then_redirect B P t t' u db resp db1 s c :
  NoDup (map short_code (rows db)) ->
  (forall r, In r (rows db) -> original_url r = trim u -> expires_at r = None) ->
  handle B P t (PostShorten (mkShortenBody (JStr u) None)) db = (Ok resp, db1) ->
  body resp = BJson (OObj [("short_url", OStr s); ("short_code", OStr c)]) ->
  exists db2,
    handle B P t' (GetRedirect c) db1
      = (Ok (mkResponse 302 "" (BRedirect (trim u))), db2).
Proof.
  intros Hnd Hexp H Hb.
  destruct (shorten_ok_inv B P t u None db resp db1 s c H Hb)
    as [Hup [_ [_ [[r [Hf [-> ->]]] | [Hf [rest [Hc ->]]]]]]].
  - destruct (find_by_url_spec _ _ _ Hf) as [Hin Ho].
    pose proof (find_by_code_nodup _ _ Hnd Hin) as Hfc.
    eexists. rewrite (redirect_live B P t' (short_code r) db r Hup Hfc).
    + rewrite Ho. reflexivity.
    + apply Hexp; assumption.
  - eexists. rewrite redirect_live with (r := mkRow c (trim u) t None 0); simpl.
    + reflexivity.
    + exact Hup.
    + rewrite find_by_code_app, (fresh_code_spec _ _ _ _ Hc). simpl.
      rewrite String.eqb_refl. reflexivity.
    + reflexivity.
Qed.

(** The store of the C2 counterexample: the URL was shortened earlier with
    an expiration at instant 10. *)
Definition db_expired_link : Db :=
  mkDb [mkRow "abc123" "https://example.com/a/b" 0%Z (Some 10%Z) 0] true "" [].

(** C2 counterexample: POST of ["https://example.com/a/b"] without
    expiration at instant 20 succeeds with the existing code, but GET of
    that code does not redirect to the URL: it answers 410. *)
Lemma shorten_then_redirect_cex :
  handle default_base http_url_parses 20
    (PostShorten (mkShortenBody (JStr "https://example.com/a/b") None)) db_expired_link
  = (Ok (json 200 (OObj [("short_url", OStr "http://localhost:5000/abc123");
                         ("short_code", OStr "abc123")])), db_expired_link) /\
  fst (handle default_base http_url_parses 20 (GetRedirect "abc123") db_expired_link)
  = Ok (html 410 (BExpiredPage 10%Z)) /\
  fst (handle default_base http_url_parses 20 (GetRedirect "abc123") db_expired_link)
  <> Ok (mkResponse 302 "" (BRedirect "https://example.com/a/b")).
Proof. vm_compute. split; [reflexivity|]. split; [reflexivity|]. discriminate. Qed.

(* ================================================================= *)
(** ** Deduplication *)

(** C3: two POST /api/shorten whose URLs trim to the same string, the first
    one successful: the second answers exactly as the first, ignores its own
    [expires_at] and instant, leaves the store as it was, and the store holds
    exactly one row for the URL (given at most one before, which every
    reachable store satisfies, see [handle_urls_unique]). *)
Theorem shorten_idempotent B P t1 t2 u1 u2 e1 e2 db db1 db2 resp1 resp2 s c :
  trim u2 = trim u1 ->
  count_url (trim u1) (rows db) <= 1 ->
  handle B P t1 (PostShorten (mkShortenBody (JStr u1) e1)) db = (Ok resp1, db1) ->
  body resp1 = BJson (OObj [("short_url", OStr s); ("short_code", OStr c)]) ->
  handle B P t2 (PostShorten (mkShortenBody (JStr u2) e2)) db1 = (Ok resp2, db2) ->
  resp2 = resp1 /\ db2 = db1 /\ count_url (trim u1) (rows db2) = 1.
Proof.
  intros Htr Hcnt H1 Hb H2.
  destruct (shorten_ok_inv B P t1 u1 e1 db resp1 db1 s c H1 Hb) as [Hup [Ht [V Hcase]]].
  assert (Hr : exists r, up db1 = true /\ find_by_url (trim u1) (rows db1) = Some r /\
                         short_code r = c /\ count_url (trim u1) (rows db1) = 1).
  { destruct Hcase as [[r [Hf [-> ->]]] | [Hf [rest [Hc ->]]]].
    - exists r. repeat split; auto.
      pose proof (find_by_url_some_count _ _ _ Hf). lia.
    - exists (mkRow c (trim u1) t1 e1 0). simpl. rewrite Hup.
      rewrite find_by_url_app, Hf, count_url_app, (find_by_url_none_count _ _ Hf).
      unfold count_url. simpl. rewrite String.eqb_refl. repeat split; reflexivity. }
  destruct Hr as [r [Hup1 [Hf1 [Hc1 Hn1]]]].
  rewrite <- Htr in Ht, V, Hf1.
  rewrite (shorten_found B P t2 u2 e2 db1 r Hup1 Ht V Hf1) in H2.
  injection H2 as <- <-. rewrite Hc1.
  destruct (handle_shorten_cases B P t1 (mkShortenBody (JStr u1) e1) db)
    as [E|[E|[[d E]|[c0 [d E]]]]]; rewrite E in H1; injection H1 as <- _;
    try discriminate Hb.
  simpl in Hb. injection Hb as _ ->. auto.
Qed.

(* ================================================================= *)
(** ** Effect of one request on the rows *)

Ltac split_matches :=
  repeat match goal with
  | |- context [match ?x with _ => _ end] =>
      lazymatch x with
      | context [match _ with _ => _ end] => fail
      | _ => let E := fresh "E" in destruct x eqn:E
      end
  end.

Lemma bump_rows_count_url u c rs : count_url u (bump_rows c rs) = count_url u rs.
Proof.
  unfold count_url, bump_rows. induction rs as [|x t IH]; simpl; [reflexivity|].
  destruct (String.eqb (short_code x) c); simpl;
    destruct (String.eqb (original_url x) u); simpl; lia.
Qed.

Lemma clicks_bump c c' db :
  find_by_code c' (rows db) <> None ->
  clicks c (set_rows (bump_rows c' (rows db)) db)
  = clicks c db + (if String.eqb c' c then 1 else 0).
Proof.
  intros Hex. unfold clicks, set_rows. simpl. rewrite find_by_code_bump.
  destruct (String.eqb_spec c' c) as [<-|E].
  - rewrite String.eqb_refl. destruct (find_by_code c' (rows db)); [simpl; lia|].
    contradiction.
  - destruct (String.eqb_spec c c') as [E'|_]; [congruence|].
    destruct (find_by_code c (rows db)); lia.
Qed.

Lemma clicks_append c db row up' cause' ds :
  find_by_code (short_code row) (rows db) = None -> click_count row = 0 ->
  clicks c (mkDb (rows db ++ [row]) up' cause' ds) = clicks c db.
Proof.
  intros Hf H0. unfold clicks. simpl. rewrite find_by_code_app.
  destruct (find_by_code c (rows db)) as [r|] eqn:Hc; [reflexivity|].
  simpl. destruct (String.eqb (short_code row) c); auto.
Qed.

(** How one request changes the rows: not at all (and it is no served
    redirect), by the click update of a served redirect, or by appending a
    fresh row (new URL, new code, 0 clicks) on a successful shortening. *)
Lemma handle_rows B P t q db resp db' :
  handle B P t q db = (Ok resp, db') ->
  (rows db' = rows db /\ forall c, served_redirect c (q, resp) = false) \/
  (exists c, q = GetRedirect c /\ status resp = 302 /\
             find_by_code c (rows db) <> None /\
             db' = set_rows (bump_rows c (rows db)) db) \/
  (exists b row rest, q = PostShorten b /\
     find_by_url (original_url row) (rows db) = None /\
     find_by_code (short_code row) (rows db) = None /\ click_count row = 0 /\
     db' = mkDb (rows db ++ [row]) (up db) (cause db) rest).
Proof.
  destruct db as [rs u cs ds].
  destruct q as [| |b|c|c|c]; unfold_route; simpl; split_matches;
    intros [= <- <-]; simpl in *.
  all: try (left; split; [reflexivity | intros; rewrite ?andb_false_r; reflexivity]).
  all: try (right; left; eexists; split; [reflexivity|]; split; [reflexivity|];
            split; [congruence|reflexivity]).
  (* the shortening that inserts a row *)
  right; right. exists b, (mkRow s0 s t (b_expires_at b) 0), l.
  repeat split; simpl; auto. eapply fresh_code_spec; eassumption.
Qed.

(** Every route answers: all service failures are caught. *)
Lemma handle_ok B P t q db : exists resp db', handle B P t q db = (Ok resp, db').
Proof.
  destruct db as [rs u cs ds].
  destruct q as [| |b|c|c|c]; unfold_route; simpl; split_matches; eauto.
Qed.

Lemma handle_clicks B P t q db resp db' c :
  handle B P t q db = (Ok resp, db') ->
  clicks c db' = clicks c db + (if served_redirect c (q, resp) then 1 else 0).
Proof.
  intros H.
  destruct (handle_rows B P t q db resp db' H)
    as [[Hr Hs] | [[c' [-> [Hst [Hex ->]]]] | [b [row [rest [-> [_ [Hc [H0 ->]]]]]]]]].
  - unfold clicks. rewrite Hr, Hs. lia.
  - rewrite clicks_bump by exact Hex. simpl. rewrite Hst. simpl.
    rewrite andb_true_r. reflexivity.
  - rewrite clicks_append by assumption. simpl. lia.
Qed.

Lemma run_clicks B P reqs db log db' c :
  run B P reqs db = (log, db') ->
  clicks c db' = clicks c db + length (filter (served_redirect c) log).
Proof.
  revert db log. induction reqs as [|[t q] rest IH]; intros db log H.
  - simpl in H. injection H as <- <-. simpl. lia.
  - simpl in H. destruct (handle_ok B P t q db) as [resp [db1 Hh]]. rewrite Hh in H.
    destruct (run B P rest db1) as [log' db2] eqn:Hr. injection H as <- <-.
    rewrite (IH db1 log' Hr), (handle_clicks B P t q db resp db1 c Hh).
    cbn [filter]. destruct (served_redirect c (q, resp)); cbn [length]; lia.
Qed.

(** At most one row per URL. *)
Definition urls_unique (rs : list Row) : Prop := forall u, count_url u rs <= 1.

Lemma handle_urls_unique B P t q db resp db' :
  urls_unique (rows db) ->
  handle B P t q db = (Ok resp, db') -> urls_unique (rows db').
Proof.
  intros Hu H v.
  destruct (handle_rows B P t q db resp db' H)
    as [[Hr _] | [[c' [_ [_ [_ ->]]]] | [b [row [rest [_ [Hf [_ [_ ->]]]]]]]]].
  - rewrite Hr. apply Hu.
  - simpl. rewrite bump_rows_count_url. apply Hu.
  - simpl. rewrite count_url_app. unfold count_url at 2. simpl.
    destruct (String.eqb_spec (original_url row) v) as [<-|_]; simpl.
    + rewrite (find_by_url_none_count _ _ Hf). lia.
    + specialize (Hu v). lia.
Qed.

(* ================================================================= *)
(** ** Click counting *)

(** C4: the click count of a code (that of the row a lookup finds, 0 when
    none) grows by exactly 1 on each served redirect of that code (302 from
    GET /:shortCode) and is unchanged by every other request, including
    expired and unknown redirects; a row inserted by POST /api/shorten
    starts at 0; over any sequence of requests the count grows by the number
    of served redirects of the code; and the stats route reports it. *)
Theorem click_count_only_by_redirect B P c :
  (forall t q db resp db',
     handle B P t q db = (Ok resp, db') ->
     clicks c db' = clicks c db + (if served_redirect c (q, resp) then 1 else 0)) /\
  (forall t b db resp db' r,
     find_by_code c (rows db) = None ->
     handle B P t (PostShorten b) db = (Ok resp, db') ->
     find_by_code c (rows db') = Some r -> click_count r = 0) /\
  (forall reqs db log db',
     run B P reqs db = (log, db') ->
     clicks c db' = clicks c db + length (filter (served_redirect c) log)) /\
  (forall t db r,
     up db = true -> find_by_code c (rows db) = Some r ->
     handle B P t (GetStats c) db = (Ok (json 200 (row_stats r)), db) /\
     click_count r = clicks c db).
Proof.
  split; [|split; [|split]].
  - intros. eapply handle_clicks; eassumption.
  - intros t b db resp db' r Hn H Hr.
    pose proof (handle_clicks B P t (PostShorten b) db resp db' c H) as Hc.
    unfold clicks in Hc. rewrite Hn, Hr in Hc. simpl in Hc. lia.
  - intros. eapply run_clicks; eassumption.
  - intros t db r Hup Hf. split.
    + unfold_route. rewrite Hup, Hf. reflexivity.
    + unfold clicks. rewrite Hf. reflexivity.
Qed.

(* ================================================================= *)
(** ** Unreachable store *)

(** C5 (as amended): with an unreachable store, POST /api/shorten of an
    accepted URL answers 500 [{error: "Failed to shorten"}]; GET
    /api/stats/:shortCode answers 404 [{error: "Not found"}] and GET
    /:shortCode the 404 Not Found page, as for an unknown code; GET
    /api/debug/urls answers 500 with the driver's own message. *)
Theorem store_failure_responses B P t db :
  up db = false ->
  (forall b u, b_url b = JStr u -> trim u <> "" -> isValidUrl P (trim u) = true ->
     handle B P t (PostShorten b) db
       = (Ok (json 500 (OObj [("error", OStr "Failed to shorten")])), db)) /\
  (forall c, handle B P t (GetStats c) db
               = (Ok (json 404 (OObj [("error", OStr "Not found")])), db)) /\
  (forall c, handle B P t (GetRedirect c) db = (Ok (html 404 BNotFoundPage), db)) /\
  handle B P t GetDebugUrls db = (Ok (json 500 (OObj [("error", OStr (cause db))])), db).
Proof.
  intros Hdown. split; [|split; [|split]].
  - intros b u Hb Ht V. unfold handle, trim_field. rewrite Hb.
    destruct (String.eqb_spec u "") as [->|_]; [contradiction|].
    destruct (String.eqb_spec (trim u) "") as [E|_]; [contradiction|].
    rewrite V. simpl. unfold_route. rewrite Hdown. reflexivity.
  - intros c. unfold_route. rewrite Hdown. reflexivity.
  - intros c. unfold_route. rewrite Hdown. reflexivity.
  - unfold_route. rewrite Hdown. reflexivity.
Qed.

(** A store whose pool cannot connect. *)
Definition db_down : Db :=
  mkDb [] false "Failed to connect to urls-db.database.windows.net:1433" [].

(** C5 counterexample: with the store unreachable, GET /api/stats/abc123
    answers 404, not 500, and GET /api/debug/urls answers with the driver's
    message. *)
Lemma store_failure_cex :
  status (fst_ok (handle default_base http_url_parses 0 (GetStats "abc123") db_down)) = 404 /\
  handle default_base http_url_parses 0 GetDebugUrls db_down
    = (Ok (json 500 (OObj [("error",
         OStr "Failed to connect to urls-db.database.windows.net:1433")])), db_down).
Proof. vm_compute. split; reflexivity. Qed.

(* ================================================================= *)
(** ** URL validation *)

(** C6 (as amended): for a string [url], POST /api/shorten answers 400
    [{error: "Invalid URL"}] and leaves the store as it was exactly when the
    trimmed URL is empty, does not parse, or contains ["localhost"] or
    ["azurewebsites.net"] anywhere; otherwise the service is called and the
    answer is not 400.  [BASE_URL] plays no part in the decision. *)
Theorem shorten_rejects_invalid B P t b db u :
  b_url b = JStr u ->
  let rejected := String.eqb (trim u) "" || negb (P (trim u))
                  || includes (trim u) "localhost"
                  || includes (trim u) "azurewebsites.net" in
  (rejected = true ->
   handle B P t (PostShorten b) db
     = (Ok (json 400 (OObj [("error", OStr "Invalid URL")])), db)) /\
  (rejected = false ->
   fst (handle B P t (PostShorten b) db)
     <> Ok (json 400 (OObj [("error", OStr "Invalid URL")]))).
Proof.
  intros Hb rejected. unfold rejected. unfold handle, trim_field. rewrite Hb.
  destruct (String.eqb_spec u "") as [->|Hne].
  { split; [reflexivity|]. cbn. discriminate. }
  unfold isValidUrl.
  destruct (String.eqb (trim u) ""), (P (trim u)), (includes (trim u) "localhost"),
    (includes (trim u) "azurewebsites.net"); simpl;
    split; intros Hr; try discriminate Hr; try reflexivity.
  unfold catch, bind, ret.
  destruct (createShortUrl t (trim u) (b_expires_at b) db) as [[c|e] d]; simpl;
    discriminate.
Qed.

(** An empty reachable store with one pending code draw. *)
Definition db_fresh : Db := mkDb [] true "" ["x7Yz9Q"].

(** C6 counterexample: with [BASE_URL] = ["https://sho.rt"], a URL on the
    service's own base host is accepted and a row is created for it. *)
Lemma shorten_self_host_cex :
  handle "https://sho.rt" http_url_parses 0
    (PostShorten (mkShortenBody (JStr "https://sho.rt/abc") None)) db_fresh
  = (Ok (json 200 (OObj [("short_url", OStr "https://sho.rt/x7Yz9Q");
                         ("short_code", OStr "x7Yz9Q")])),
     mkDb [mkRow "x7Yz9Q" "https://sho.rt/abc" 0 None 0] true "" []).
Proof. vm_compute. reflexivity. Qed.

(* ================================================================= *)
(** ** The theorems at concrete requests *)

(** The store after shortening ["https://example.com/a/b"] in [db_fresh]
    at instant 0. *)
Definition db_after : Db :=
  mkDb [mkRow "x7Yz9Q" "https://example.com/a/b" 0 None 0] true "" [].

Definition shortened_x7 : Response :=
  json 200 (OObj [("short_url", OStr "http://localhost:5000/x7Yz9Q");
                  ("short_code", OStr "x7Yz9Q")]).

Lemma redirect_expired_410_witness :
  handle default_base http_url_parses 20 (GetRedirect "abc123") db_expired_link
  = (Ok (html 410 (BExpiredPage 10)), db_expired_link).
Proof.
  apply (redirect_expired_410 default_base http_url_parses 20 "abc123" db_expired_link
           (mkRow "abc123" "https://example.com/a/b" 0 (Some 10%Z) 0) 10);
    vm_compute; reflexivity.
Defined.

Lemma shorten_then_redirect_witness :
  exists db2, handle default_base http_url_parses 100 (GetRedirect "x7Yz9Q") db_after
              = (Ok (mkResponse 302 "" (BRedirect (trim " https://example.com/a/b"))), db2).
Proof.
  apply (shorten_then_redirect default_base http_url_parses 0 100 " https://example.com/a/b"
           db_fresh shortened_x7 db_after "http://localhost:5000/x7Yz9Q" "x7Yz9Q").
  - simpl. constructor.
  - simpl. intros r [].
  - vm_compute. reflexivity.
  - reflexivity.
Defined.

Lemma shorten_idempotent_witness :
  shortened_x7 = shortened_x7 /\ db_after = db_after /\
  count_url (trim "https://example.com/a/b") (rows db_after) = 1.
Proof.
  apply (shorten_idempotent default_base http_url_parses 0 7
           "https://example.com/a/b" "  https://example.com/a/b" None (Some 99%Z)
           db_fresh db_after db_after shortened_x7 shortened_x7
           "http://localhost:5000/x7Yz9Q" "x7Yz9Q").
  - reflexivity.
  - apply Nat.leb_le. vm_compute. reflexivity.
  - vm_compute. reflexivity.
  - reflexivity.
  - vm_compute. reflexivity.
Defined.

(** Shorten, two redirects, one stats lookup. *)
Definition click_trace : list (Z * Request) :=
  [(0%Z, PostShorten (mkShortenBody (JStr "https://example.com/a/b") None));
   (1%Z, GetRedirect "x7Yz9Q"); (2%Z, GetRedirect "x7Yz9Q"); (3%Z, GetStats "x7Yz9Q")].

Lemma click_count_only_by_redirect_witness :
  clicks "x7Yz9Q" (snd (run default_base http_url_parses click_trace db_fresh)) = 2 /\
  clicks "x7Yz9Q" (snd (run default_base http_url_parses click_trace db_fresh))
  = clicks "x7Yz9Q" db_fresh
    + length (filter (served_redirect "x7Yz9Q")
                     (fst (run default_base http_url_parses click_trace db_fresh))).
Proof.
  split; [vm_compute; reflexivity|].
  destruct (click_count_only_by_redirect default_base http_url_parses "x7Yz9Q")
    as [_ [_ [Hrun _]]].
  apply (Hrun click_trace db_fresh). apply surjective_pairing.
Defined.

Lemma store_failure_responses_witness :
  handle default_base http_url_parses 0 (GetStats "abc123") db_down
  = (Ok (json 404 (OObj [("error", OStr "Not found")])), db_down).
Proof.
  destruct (store_failure_responses default_base http_url_parses 0 db_down)
    as [_ [Hs _]].
  - reflexivity.
  - apply Hs.
Defined.

Lemma shorten_rejects_invalid_witness :
  handle default_base http_url_parses 0
    (PostShorten (mkShortenBody (JStr " http://localhost:5000/x ") None)) db_fresh
  = (Ok (json 400 (OObj [("error", OStr "Invalid URL")])), db_fresh).
Proof.
  destruct (shorten_rejects_invalid default_base http_url_parses 0
              (mkShortenBody (JStr " http://localhost:5000/x ") None) db_fresh
              " http://localhost:5000/x " eq_refl) as [H _].
  apply H. vm_compute. reflexivity.
Defined.

Lemma stats_snapshot_witness :
  handle default_base http_url_parses 20 (GetStats "abc123") db_expired_link
  = (Ok (json 200 (row_stats (mkRow "abc123" "https://example.com/a/b" 0 (Some 10%Z) 0))),
     db_expired_link).
Proof.
  destruct (stats_snapshot default_base http_url_parses "abc123" db_expired_link eq_refl)
    as [_ H].
  apply H. reflexivity.
Defined.

Lemma shorten_short_url_witness :
  exists c, body shortened_x7
            = BJson (OObj [("short_url", OStr (default_base ++ "/" ++ c));
                           ("short_code", OStr c)]).
Proof.
  apply (shorten_short_url default_base http_url_parses 0
           (mkShortenBody (JStr "https://example.com/a/b") None) db_fresh shortened_x7 db_after).
  - vm_compute. reflexivity.
  - reflexivity.
Defined.

Lemma shorten_missing_url_400_witness :
  handle default_base http_url_parses 0 (PostShorten (mkShortenBody (JStr "   ") None)) db_fresh
  = (Ok (json 400 (OObj [("error", OStr "Invalid URL")])), db_fresh).
Proof.
  apply shorten_missing_url_400. right; right. exists "   ". split; reflexivity.
Defined.

(* ================================================================= *)
(** ** Trimming *)

(** [trim_start] and [trim_end] on the characters of a string. *)
Fixpoint ltrim (l : list ascii) : list ascii :=
  match l with
  | [] => []
  | a :: t => if js_space a then ltrim t else l
  end.

Definition rtrim (l : list ascii) : list ascii := rev (ltrim (rev l)).

Lemma ltrim_start_chars s :
  list_ascii_of_string (trim_start s) = ltrim (list_ascii_of_string s).
Proof.
  induction s as [|a t IH]; simpl; [reflexivity|].
  destruct (js_space a); [exact IH|reflexivity].
Qed.

Lemma rev_str_chars s acc :
  list_ascii_of_string (rev_str s acc)
  = (rev (list_ascii_of_string s) ++ list_ascii_of_string acc)%list.
Proof.
  revert acc. induction s as [|a t IH]; intros acc; simpl; [reflexivity|].
  rewrite IH. simpl. rewrite <- app_assoc. reflexivity.
Qed.

Lemma trim_chars s :
  list_ascii_of_string (trim s) = rtrim (ltrim (list_ascii_of_string s)).
Proof.
  unfold trim, trim_end, rtrim.
  rewrite rev_str_chars, ltrim_start_chars, rev_str_chars, ltrim_start_chars.
  simpl. rewrite !app_nil_r. reflexivity.
Qed.

Lemma ltrim_idem l : ltrim (ltrim l) = ltrim l.
Proof.
  induction l as [|a t IH]; simpl; [reflexivity|].
  destruct (js_space a) eqn:E; [exact IH|]. simpl. rewrite E. reflexivity.
Qed.

Lemma ltrim_app x y :
  ltrim (x ++ y)%list = if forallb js_space x then ltrim y else (ltrim x ++ y)%list.
Proof.
  induction x as [|a t IH]; simpl; [reflexivity|].
  destruct (js_space a); simpl; [exact IH|reflexivity].
Qed.

Lemma ltrim_shape l :
  ltrim l = [] \/ exists c r, ltrim l = c :: r /\ js_space c = false.
Proof.
  induction l as [|a t IH]; [left; reflexivity|].
  simpl. destruct (js_space a) eqn:E; [exact IH|].
  right. exists a, t. auto.
Qed.

Lemma ltrim_rtrim_of_trimmed k :
  ltrim k = k -> ltrim (rtrim k) = rtrim k.
Proof.
  intros Hk. destruct (ltrim_shape k) as [E|[c [r [E Hc]]]]; rewrite Hk in E.
  - subst k. reflexivity.
  - subst k. unfold rtrim. simpl. rewrite ltrim_app.
    destruct (forallb js_space (rev r)); simpl.
    + rewrite Hc. simpl. rewrite Hc. reflexivity.
    + rewrite rev_app_distr. simpl. rewrite Hc. reflexivity.
Qed.

Lemma rtrim_idem l : rtrim (rtrim l) = rtrim l.
Proof. unfold rtrim. rewrite rev_involutive, ltrim_idem. reflexivity. Qed.

(** [s.trim()] is idempotent: the frontend sends [url.trim()] and the
    backend trims it again to the same string. *)
Theorem trim_idempotent s : trim (trim s) = trim s.
Proof.
  rewrite <- (string_of_list_ascii_of_string (trim (trim s))),
          <- (string_of_list_ascii_of_string (trim s)).
  f_equal. rewrite !trim_chars.
  set (k := ltrim (list_ascii_of_string s)).
  assert (Hk : ltrim k = k) by apply ltrim_idem.
  rewrite list_ascii_of_string_of_list_ascii.
  rewrite (ltrim_rtrim_of_trimmed k Hk). apply rtrim_idem.
Qed.

(* ================================================================= *)
(** ** More of the backend routes *)


(** The debug listing's entry for a row. *)
Definition debug_entry (r : Row) : JOut :=
  OObj [("short_code", OStr (short_code r)); ("original_url", OStr (original_url r))].

(** GET /api/debug/urls on a reachable store lists one entry per stored
    row, expired or not, in store order, and changes nothing. *)
Theorem debug_lists_all_rows B P t db :
  up db = true ->
  exists l, handle B P t GetDebugUrls db = (Ok (json 200 (OArr l)), db) /\
            length l = length (rows db) /\
            (forall r, In r (rows db) -> In (debug_entry r) l).
Proof.
  intros Hup. exists (map debug_entry (rows db)). split; [|split].
  - unfold_route. rewrite Hup. reflexivity.
  - apply length_map.
  - intros r Hin. apply in_map. exact Hin.
Qed.

(** GET /:shortCode of a code no row has answers the 404 Not Found page
    and leaves the store as it was, whether or not the store is
    reachable. *)
Theorem redirect_unknown_404 B P t c db :
  find_by_code c (rows db) = None ->
  handle B P t (GetRedirect c) db = (Ok (html 404 BNotFoundPage), db).
Proof.
  intros Hf. unfold_route. destruct (up db); [rewrite Hf|]; reflexivity.
Qed.

(** The fields of a row other than its click count. *)
Definition row_key (r : Row) : string * string * Z * option Z :=
  (short_code r, original_url r, created_at r, expires_at r).

Lemma bump_rows_keys c rs : map row_key (bump_rows c rs) = map row_key rs.
Proof.
  unfold bump_rows. rewrite map_map. apply map_ext. intros r.
  destruct (String.eqb (short_code r) c); reflexivity.
Qed.

(** No sequence of requests deletes a row or changes its code, URL,
    creation time or expiration: the rows before are, field for field
    (click counts apart), a prefix of the rows after. *)
Theorem run_keeps_records B P reqs db log db' :
  run B P reqs db = (log, db') ->
  exists extra, map row_key (rows db') = (map row_key (rows db) ++ extra)%list.
Proof.
  revert db log. induction reqs as [|[t q] rest IH]; intros db log H.
  - simpl in H. injection H as <- <-. exists []. rewrite app_nil_r. reflexivity.
  - simpl in H. destruct (handle_ok B P t q db) as [resp [db1 Hh]]. rewrite Hh in H.
    destruct (run B P rest db1) as [log' db2] eqn:Hr. injection H as <- <-.
    destruct (IH db1 log' Hr) as [extra Hx]. rewrite Hx.
    destruct (handle_rows B P t q db resp db1 Hh)
      as [[E _] | [[c [_ [_ [_ ->]]]] | [b [row [rest' [_ [_ [_ [_ ->]]]]]]]]].
    + rewrite E. eauto.
    + simpl. rewrite bump_rows_keys. eauto.
    + simpl. rewrite map_app, <- app_assoc. eauto.
Qed.

(* ================================================================= *)
(** ** The frontend against the backend *)

(** After [handleShorten], whatever its outcome, [isExpired] is false at
    every instant: the result is either cleared or the JSON answer of POST
    /api/shorten, which has no [expires_at] field, so App.js never shows its
    "This link has expired" message. *)
Theorem handleShorten_never_expired A B P pd jm now now' fe db fe' db' :
  handleShorten A B P jm now fe db = (Ok fe', db') -> isExpired pd now' fe' = false.
Proof.
  unfold handleShorten.
  destruct (String.eqb (trim (fe_url fe)) ""); [intros [= <- _]; reflexivity|].
  destruct (negb (fe_isValidUrl P (fe_url fe))); [intros [= <- _]; reflexivity|].
  unfold bind.
  destruct (handle_shorten_cases B P now
              (mkShortenBody (JStr (trim (fe_url fe))) (fe_expiresAt fe)) db)
    as [E|[E|[[d E]|[c [d E]]]]]; rewrite E; intros [= <- _]; reflexivity.
Qed.

(** With [REACT_APP_API_URL] equal to the backend's [BASE_URL], a result
    displayed by [handleShorten] carries [short_url] = BASE_URL/c, and the
    QR image App.js loads, GET /api/qr/c, encodes that same short URL. *)
Theorem handleShorten_qr_is_short_url B P jm now fe db fe' db' data :
  handleShorten B B P jm now fe db = (Ok fe', db') -> fe_result fe' = Some data ->
  exists c, jget "short_url" data = Some (OStr (B ++ "/" ++ c)) /\
            fe_qrCode fe' = Some (B ++ "/api/qr/" ++ c) /\
            (forall t d, handle B P t (GetQr c) d
                         = (Ok (mkResponse 200 "image/png" (BQrPng (B ++ "/" ++ c))), d)).
Proof.
  unfold handleShorten.
  destruct (String.eqb (trim (fe_url fe)) ""); [intros [= <- _]; discriminate|].
  destruct (negb (fe_isValidUrl P (fe_url fe))); [intros [= <- _]; discriminate|].
  unfold bind.
  destruct (handle_shorten_cases B P now
              (mkShortenBody (JStr (trim (fe_url fe))) (fe_expiresAt fe)) db)
    as [E|[E|[[d E]|[c [d E]]]]]; rewrite E; intros [= <- _]; try discriminate.
  simpl. intros [= <-]. exists c. split; [reflexivity|]. split; [reflexivity|].
  intros t d'. reflexivity.
Qed.


(** An input App.js accepts (it parses as a URL) that the backend refuses
    (the trimmed URL does not parse, or contains "localhost" or
    "azurewebsites.net"): the POST gets 400, App.js shows "Failed to shorten
    URL" with no result, and the store is unchanged. *)
Theorem handleShorten_backend_rejects A B P jm now fe db :
  trim (fe_url fe) <> "" -> P (fe_url fe) = true ->
  (P (trim (fe_url fe)) = false \/ includes (trim (fe_url fe)) "localhost" = true \/
   includes (trim (fe_url fe)) "azurewebsites.net" = true) ->
  handleShorten A B P jm now fe db
    = (Ok (fe_set_loading false (fe_set_error "Failed to shorten URL" (fe_reset fe))), db).
Proof.
  intros Hne Hp Hbad.
  assert (Hpost : handle B P now
                    (PostShorten (mkShortenBody (JStr (trim (fe_url fe))) (fe_expiresAt fe))) db
                  = (Ok (json 400 (OObj [("error", OStr "Invalid URL")])), db)).
  { unfold handle, trim_field. cbn [b_url b_expires_at].
    destruct (String.eqb_spec (trim (fe_url fe)) "") as [E|_]; [contradiction|].
    rewrite trim_idempotent.
    destruct (String.eqb_spec (trim (fe_url fe)) "") as [E|_]; [contradiction|].
    unfold isValidUrl.
    destruct Hbad as [E|[E|E]]; rewrite E; simpl; [reflexivity| |];
      destruct (P (trim (fe_url fe))); simpl; rewrite ?orb_true_r; reflexivity. }
  unfold handleShorten.
  destruct (String.eqb_spec (trim (fe_url fe)) "") as [E|_]; [contradiction|].
  unfold fe_isValidUrl. rewrite Hp. cbv beta iota zeta delta [negb bind]. rewrite Hpost. reflexivity.
Qed.

(** [handleGetStats]: without a result nothing happens; with a result
    whose code names a row of a reachable store, the stats panel shows that
    row's snapshot; when the store is unreachable or has no such row, it
    shows "Failed to fetch stats".  The store is never changed. *)
Theorem handleGetStats_outcomes B P now fe db :
  (fe_result fe = None -> handleGetStats B P now fe db = (Ok fe, db)) /\
  (forall r row, fe_result fe = Some r -> up db = true ->
     find_by_code (js_str (jget "short_code" r)) (rows db) = Some row ->
     handleGetStats B P now fe db
       = (Ok (mkFe (fe_url fe) (fe_expiresAt fe) (fe_result fe) (fe_qrCode fe)
                   (fe_error fe) (fe_loading fe) (Some (row_stats row)) true), db)) /\
  (forall r, fe_result fe = Some r ->
     (up db = false \/ find_by_code (js_str (jget "short_code" r)) (rows db) = None) ->
     handleGetStats B P now fe db = (Ok (fe_set_error "Failed to fetch stats" fe), db)).
Proof.
  split; [|split].
  - intros H. unfold handleGetStats. rewrite H. reflexivity.
  - intros r row Hr Hup Hf.
    assert (Hs : handle B P now (GetStats (js_str (jget "short_code" r))) db
                 = (Ok (json 200 (row_stats row)), db))
      by (unfold_route; rewrite Hup, Hf; reflexivity).
    unfold handleGetStats. rewrite Hr. unfold bind. rewrite Hs. reflexivity.
  - intros r Hr Hbad.
    assert (Hs : handle B P now (GetStats (js_str (jget "short_code" r))) db
                 = (Ok (json 404 (OObj [("error", OStr "Not found")])), db)).
    { unfold_route. destruct (up db); [|reflexivity].
      destruct Hbad as [E|E]; [discriminate|]. rewrite E. reflexivity. }
    unfold handleGetStats. rewrite Hr. unfold bind. rewrite Hs. reflexivity.
Qed.

(* ================================================================= *)
(** ** Instances of the further properties *)

(** The form with an input typed into the URL field and no expiry. *)
Definition fe_typed (u : string) : FeState := mkFe u None None None "" false None false.

(** The form showing the result of shortening into [db_after]. *)
Definition fe_shown : FeState :=
  mkFe "" None
       (Some (OObj [("short_url", OStr "http://localhost:5000/x7Yz9Q");
                    ("short_code", OStr "x7Yz9Q")]))
       (Some "http://localhost:5000/api/qr/x7Yz9Q") "" false None false.


Lemma debug_lists_all_rows_witness :
  up db_after = true /\
  exists l, handle default_base http_url_parses 3 GetDebugUrls db_after
              = (Ok (json 200 (OArr l)), db_after) /\
            length l = length (rows db_after) /\
            (forall r, In r (rows db_after) -> In (debug_entry r) l).
Proof.
  split; [reflexivity|].
  apply (debug_lists_all_rows default_base http_url_parses 3 db_after). reflexivity.
Defined.

Lemma redirect_unknown_404_witness :
  find_by_code "nope42" (rows db_after) = None /\
  handle default_base http_url_parses 5 (GetRedirect "nope42") db_after
    = (Ok (html 404 BNotFoundPage), db_after).
Proof.
  split; [reflexivity|].
  apply (redirect_unknown_404 default_base http_url_parses 5 "nope42" db_after).
  reflexivity.
Defined.

Lemma run_keeps_records_witness :
  exists extra,
    map row_key (rows (snd (run default_base http_url_parses click_trace db_fresh)))
    = (map row_key (rows db_fresh) ++ extra)%list.
Proof.
  apply (run_keeps_records default_base http_url_parses click_trace db_fresh
           (fst (run default_base http_url_parses click_trace db_fresh))
           (snd (run default_base http_url_parses click_trace db_fresh))).
  vm_compute. reflexivity.
Defined.

Lemma handleShorten_never_expired_witness :
  exists fe' db',
    handleShorten default_base default_base http_url_parses "Failed to shorten URL" 0
      (fe_typed "https://example.com/a/b") db_fresh = (Ok fe', db') /\
    isExpired (fun _ => Some 0%Z) 100 fe' = false.
Proof.
  eexists. eexists. split; [reflexivity|].
  eapply (handleShorten_never_expired default_base default_base http_url_parses
            (fun _ => Some 0%Z) "Failed to shorten URL" 0 100
            (fe_typed "https://example.com/a/b") db_fresh).
  reflexivity.
Defined.

Lemma handleShorten_qr_is_short_url_witness :
  exists fe' db' data,
    handleShorten default_base default_base http_url_parses "Failed to shorten URL" 0
      (fe_typed "https://example.com/a/b") db_fresh = (Ok fe', db') /\
    fe_result fe' = Some data /\
    exists c, jget "short_url" data = Some (OStr (default_base ++ "/" ++ c)) /\
              fe_qrCode fe' = Some (default_base ++ "/api/qr/" ++ c) /\
              (forall t d, handle default_base http_url_parses t (GetQr c) d
                 = (Ok (mkResponse 200 "image/png" (BQrPng (default_base ++ "/" ++ c))), d)).
Proof.
  eexists. eexists. eexists. split; [reflexivity|]. split; [reflexivity|].
  eapply (handleShorten_qr_is_short_url default_base http_url_parses "Failed to shorten URL" 0
            (fe_typed "https://example.com/a/b") db_fresh); reflexivity.
Defined.


Lemma handleShorten_backend_rejects_witness :
  trim (fe_url (fe_typed "http://localhost:3000/page")) <> "" /\
  handleShorten default_base default_base http_url_parses "Failed to shorten URL" 0
    (fe_typed "http://localhost:3000/page") db_after
  = (Ok (fe_set_loading false (fe_set_error "Failed to shorten URL"
                                 (fe_reset (fe_typed "http://localhost:3000/page")))),
     db_after).
Proof.
  split; [intro H; vm_compute in H; discriminate H|].
  apply handleShorten_backend_rejects.
  - intro H. vm_compute in H. discriminate H.
  - reflexivity.
  - right. left. reflexivity.
Defined.

Lemma handleGetStats_outcomes_witness :
  handleGetStats default_base http_url_parses 5 fe_init db_after = (Ok fe_init, db_after) /\
  handleGetStats default_base http_url_parses 5 fe_shown db_after
    = (Ok (mkFe (fe_url fe_shown) (fe_expiresAt fe_shown) (fe_result fe_shown)
                (fe_qrCode fe_shown) (fe_error fe_shown) (fe_loading fe_shown)
                (Some (row_stats (mkRow "x7Yz9Q" "https://example.com/a/b" 0 None 0)))
                true), db_after) /\
  handleGetStats default_base http_url_parses 5 fe_shown db_fresh
    = (Ok (fe_set_error "Failed to fetch stats" fe_shown), db_fresh).
Proof.
  split; [|split].
  - apply (proj1 (handleGetStats_outcomes default_base http_url_parses 5 fe_init db_after)).
    reflexivity.
  - eapply (proj1 (proj2 (handleGetStats_outcomes default_base http_url_parses 5
                            fe_shown db_after))); reflexivity.
  - eapply (proj2 (proj2 (handleGetStats_outcomes default_base http_url_parses 5
                            fe_shown db_fresh))); [reflexivity|].
    right. reflexivity.
Defined.
